(** * Setup_custom.py: dependency description of Common_cpp_boost_Helpers

    A shallow embedding of [Setup_custom.py] and the properties of the
    dependency map it hands to the environment-activation framework.

    The module is Python; what it touches of the process (the environment
    variables, the file system, [sys.path], the platform the framework
    detected) is gathered in a record [World], and the module's code runs in
    a state-and-exception monad over it. *)

From Stdlib Require Import Ascii String.
From stdpp Require Import gmap strings list.

Local Open Scope string_scope.
Local Open Scope list_scope.

(** ** Python results *)

Module Py.

(** The exceptions the module can meet. [AssertionError] carries the value
    of the expression after the comma of the [assert] statement, here [None]
    or a [str]; [OtherException] is any exception of another class, as the
    code of the framework may raise. *)
Inductive Exception : Type :=
  | TypeError
  | ValueError
  | IndexError
  | ImportError
  | AssertionError (msg : option string)
  | OtherException (class_name : string).

Inductive Result (A : Type) : Type :=
  | Ok (a : A)
  | Raise (e : Exception).
Global Arguments Ok {A} a.
Global Arguments Raise {A} e.

Definition bindR {A B} (r : Result A) (k : A → Result B) : Result B :=
  match r with
  | Ok a => k a
  | Raise e => Raise e
  end.

(** [x or y] where [x] is [None] or a [str]: [None] and the empty string are
    the falsy ones. *)
Definition or_str (x : option string) (y : string) : string :=
  match x with
  | None => y
  | Some EmptyString => y
  | Some s => s
  end.

(** [template.format(args...)] for the templates of the module: literal
    text, the automatically numbered field [{}] and the escapes [{{] and
    [}}], all arguments being [str]. A lone brace is a [ValueError], a field
    without an argument an [IndexError]; arguments left over are ignored.
    Fields with a name, an index, a conversion or a format specification do
    not occur in the module and are not modelled. *)
Fixpoint format (template : string) (args : list string) : Result string :=
  match template with
  | EmptyString => Ok EmptyString
  | String c rest =>
      if Ascii.eqb c "{" then
        match rest with
        | EmptyString => Raise ValueError
        | String c' rest' =>
            if Ascii.eqb c' "}" then
              match args with
              | [] => Raise IndexError
              | a :: args' => bindR (format rest' args') (λ r, Ok (a +:+ r))
              end
            else if Ascii.eqb c' "{" then
              bindR (format rest' args) (λ r, Ok (String "{" r))
            else Raise ValueError
        end
      else if Ascii.eqb c "}" then
        match rest with
        | EmptyString => Raise ValueError
        | String c' rest' =>
            if Ascii.eqb c' "}" then
              bindR (format rest' args) (λ r, Ok (String "}" r))
            else Raise ValueError
        end
      else bindR (format rest args) (λ r, Ok (String c r))
  end.

End Py.
Import Py.

(** ** The process the module runs in *)

(** [CurrentShell], the platform description of the framework: the module
    reads its category name and its architecture. *)
Record Shell : Type := {
  CategoryName : string;
  Architecture : string;
}.

Record World : Type := {
  (** [os.environ] *)
  environ : gmap string string;
  (** the paths that are existing directories *)
  directories : gset string;
  (** [sys.path]; an entry is whatever object was put there, here [None] or
      a [str] *)
  sys_path : list (option string);
  (** whether the [RepositoryBootstrap] packages resolve under a [sys.path] *)
  importable : list (option string) → bool;
  (** the platform detected by the framework *)
  CurrentShell : Shell;
}.

Definition M (A : Type) : Type := World → Result (A * World).

Definition ret {A} (a : A) : M A := λ w, Ok (a, w).

Definition bind {A B} (m : M A) (k : A → M B) : M B :=
  λ w, match m w with
       | Ok (a, w') => k a w'
       | Raise e => Raise e
       end.

Definition raise {A} (e : Exception) : M A := λ _, Raise e.

Definition lift {A} (r : Result A) : M A :=
  λ w, match r with
       | Ok a => Ok (a, w)
       | Raise e => Raise e
       end.

Declare Scope py_scope.
Delimit Scope py_scope with py.
Notation "x <- m ;; k" := (bind m (λ x, k))
  (at level 100, m at next level, right associativity) : py_scope.
Notation "m ;;; k" := (bind m (λ _, k))
  (at level 100, right associativity) : py_scope.
Local Open Scope py_scope.

(** [for x in xs: body], the loop's variables threaded as [s]. *)
Fixpoint for_each {A S} (xs : list A) (body : A → S → M S) (s : S) : M S :=
  match xs with
  | [] => ret s
  | x :: xs' => s' <- body x s ;; for_each xs' body s'
  end.

(** [os.getenv(name)]: [None] when the variable is unset. *)
Definition os_getenv (name : string) : M (option string) :=
  λ w, Ok (environ w !! name, w).

(** [os.path.isdir(path)]: [os.stat] refuses [None] with a [TypeError],
    which [isdir] lets through (it catches [OSError] and [ValueError]
    only). *)
Definition os_path_isdir (path : option string) : M bool :=
  match path with
  | None => raise TypeError
  | Some p => λ w, Ok (bool_decide (p ∈ directories w), w)
  end.

(** [assert cond, msg]. With assertions off ([python -O], [__debug__] false)
    the statement is compiled away and [cond] is not evaluated. *)
Definition assert_statement (assertions : bool) (cond : M bool)
    (msg : option string) : M unit :=
  if assertions then
    ok <- cond ;;
    if ok then ret tt else raise (AssertionError msg)
  else ret tt.

(** [sys.path.insert(0, p)] *)
Definition sys_path_insert0 (p : option string) : M unit :=
  λ w, Ok (tt, {| environ := environ w; directories := directories w;
                  sys_path := p :: sys_path w; importable := importable w;
                  CurrentShell := CurrentShell w |}).

(** [del sys.path[0]] *)
Definition sys_path_del0 : M unit :=
  λ w, match sys_path w with
       | [] => Raise IndexError
       | _ :: ps =>
           Ok (tt, {| environ := environ w; directories := directories w;
                      sys_path := ps; importable := importable w;
                      CurrentShell := CurrentShell w |})
       end.

(** What the module runs that is not in the repository: the interpreter's
    assertion mode, the [os.path.split] of the platform, and the code of the
    framework, which is arbitrary here: an import runs the imported
    packages, which may raise any exception and change the process. *)
Record Host : Type := {
  (** [__debug__]: [false] under [python -O] *)
  assertions : bool;
  (** line 30: [import CommonEnvironment] *)
  import_CommonEnvironment : M unit;
  (** line 33: [CommonEnvironment.ThisFullpath()] *)
  ThisFullpath : M string;
  (** line 34: [os.path.split], of [posixpath] or [ntpath]; on a [str] it
      returns a pair and never raises *)
  os_path_split : string → string * string;
  (** lines 49-51: the three [from RepositoryBootstrap... import]
      statements *)
  import_RepositoryBootstrap : M unit;
}.

Definition CurrentShell_CategoryName : M string :=
  λ w, Ok (CategoryName (CurrentShell w), w).

Definition CurrentShell_Architecture : M string :=
  λ w, Ok (Architecture (CurrentShell w), w).

(** ** The data model *)

(** [Dependency(id, name, configuration, url)] *)
Record Dependency : Type := {
  dep_id : string;
  dep_name : string;
  dep_configuration : string;
  dep_url : string;
}.

(** [Configuration(description, dependencies)] *)
Record Configuration : Type := {
  description : string;
  dependencies : list Dependency;
}.

(** [collections.OrderedDict] with [str] keys: the items in insertion
    order. *)
Module OrderedDict.

Definition t : Type := list (string * Configuration).

Definition empty : t := [].

(** [d[k] = v]: an existing key keeps its place and takes the new value, a
    new key goes to the end. *)
Fixpoint setitem (d : t) (k : string) (v : Configuration) : t :=
  match d with
  | [] => [(k, v)]
  | (k', v') :: d' =>
      if String.eqb k' k then (k', v) :: d' else (k', v') :: setitem d' k v
  end.

Fixpoint get (d : t) (k : string) : option Configuration :=
  match d with
  | [] => None
  | (k', v') :: d' => if String.eqb k' k then Some v' else get d' k
  end.

Definition keys (d : t) : list string := d.*1.

Definition values (d : t) : list Configuration := d.*2.

(** [for k, v in items: d[k] = v] *)
Definition update (d : t) (items : list (string * Configuration)) : t :=
  foldl (λ d kv, setitem d kv.1 kv.2) d items.

End OrderedDict.

(** ** The module *)

(** Lines 97-114: the architectures and the compilers (with their
    configuration suffix) of the platform. *)
Definition candidates : M (list string * list (string * option string)) :=
  category <- CurrentShell_CategoryName ;;
  if String.eqb category "Windows" then
    ret (["x64"; "x86"],
         [("MSVC_2019", None);
          ("Clang_10", Some "_ex")])
  else
    architecture <- CurrentShell_Architecture ;;
    ret ([architecture],
         [("Clang_10", Some "_ex")]).

(** Lines 116-162: the dictionary filled by the three loops. *)
Definition populate (architectures : list string)
    (compiler_infos : list (string * option string)) : M OrderedDict.t :=
  let d := OrderedDict.empty in
  for_each ["1.70.0"] (λ boost_version d,
    desc <- lift (format "boost {} (No compiler dependencies)" [boost_version]) ;;
    name <- lift (format "Common_cpp_boost_{}" [boost_version]) ;;
    url <- lift (format "https://github.com/davidbrownell/Common_cpp_boost_{}.git" [boost_version]) ;;
    let d := OrderedDict.setitem d boost_version
      {| description := desc;
         dependencies :=
           [ {| dep_id := "407DD743110A4FB1871AEF60CBEC99A0";
                dep_name := name;
                dep_configuration := "standard";
                dep_url := url |};
             {| dep_id := "398F6BEC057C4FE4B724153DF4EB8AE4";
                dep_name := "Common_cpp_Helpers";
                dep_configuration := "standard";
                dep_url := "https://github.com/davidbrownell/Common_cpp_Helpers.git" |} ] |} in
    for_each compiler_infos (λ info d,
      let config_name := info.1 in
      let architecture_configuration_suffix := or_str info.2 "" in
      for_each architectures (λ architecture d,
        this_config_name <- lift (format "{}_{}_{}{}"
          [boost_version; config_name; architecture; architecture_configuration_suffix]) ;;
        this_config_desc <- lift (format "boost {} - {} ({}{})"
          [boost_version; config_name; architecture; architecture_configuration_suffix]) ;;
        name <- lift (format "Common_cpp_boost_{}" [boost_version]) ;;
        conf <- lift (format "{}_{}{}"
          [config_name; architecture; architecture_configuration_suffix]) ;;
        url <- lift (format "https://github.com/davidbrownell/Common_cpp_boost_{}.git" [boost_version]) ;;
        ret (OrderedDict.setitem d this_config_name
          {| description := this_config_desc;
             dependencies :=
               [ {| dep_id := "407DD743110A4FB1871AEF60CBEC99A0";
                    dep_name := name;
                    dep_configuration := conf;
                    dep_url := url |};
                 {| dep_id := "398F6BEC057C4FE4B724153DF4EB8AE4";
                    dep_name := "Common_cpp_Helpers";
                    dep_configuration := "standard";
                    dep_url := "https://github.com/davidbrownell/Common_cpp_Helpers.git" |} ] |})
      ) d
    ) d
  ) d.

(** [GetDependencies()]: the candidates of the platform, then the loops
    over them. *)
Definition GetDependencies : M OrderedDict.t :=
  c <- candidates ;;
  populate c.1 c.2.

(** [GetCustomActions(debug, verbose, explicit_configurations)]: [return []].
    The arguments are of any type, and so are the actions of the framework,
    of which there is none here. *)
Definition GetCustomActions {Action A B C : Type}
    (debug : A) (verbose : B) (explicit_configurations : C) : M (list Action) :=
  ret [].

(** The functions the module has bound when its body has run: the two
    [def] statements come last. *)
Record Module (Action A B C : Type) : Type := {
  mod_GetDependencies : M OrderedDict.t;
  mod_GetCustomActions : A → B → C → M (list Action);
}.
Global Arguments mod_GetDependencies {Action A B C} _.
Global Arguments mod_GetCustomActions {Action A B C} _.

(** Lines 30-34: the framework is imported and asked for the path of the
    script, which is split into directory and name. *)
Definition script_location (host : Host) : M (string * string * string) :=
  import_CommonEnvironment host ;;;
  script_fullpath <- ThisFullpath host ;;
  let script_dir_name := os_path_split host script_fullpath in
  ret (script_fullpath, script_dir_name.1, script_dir_name.2).

(** Lines 45-46: the variable is read and asserted to name a directory. *)
Definition check_fundamental_repo (host : Host) : M (option string) :=
  fundamental_repo <- os_getenv "DEVELOPMENT_ENVIRONMENT_FUNDAMENTAL" ;;
  assert_statement (assertions host) (os_path_isdir fundamental_repo)
    fundamental_repo ;;;
  ret fundamental_repo.

(** Lines 30-53 and the two [def]s: the module's body, run once when the
    module is loaded. The imports of the standard library (lines 25-28) are
    left out. *)
Definition load {Action A B C : Type} (host : Host) : M (Module Action A B C) :=
  script_location host ;;;
  fundamental_repo <- check_fundamental_repo host ;;
  sys_path_insert0 fundamental_repo ;;;
  import_RepositoryBootstrap host ;;;
  sys_path_del0 ;;;
  ret {| mod_GetDependencies := GetDependencies;
         mod_GetCustomActions := GetCustomActions |}.

(** ** The loops as a comprehension *)

(** What the loops put into the dictionary when no key comes twice: one item
    for the version alone, then one for each compiler and architecture, in
    the order of the loops. [populate_items] below proves that [populate]
    computes exactly this list. *)
Module Items.

Definition deps (boost_version conf : string) : list Dependency :=
  [ {| dep_id := "407DD743110A4FB1871AEF60CBEC99A0";
       dep_name := "Common_cpp_boost_" +:+ boost_version;
       dep_configuration := conf;
       dep_url := "https://github.com/davidbrownell/Common_cpp_boost_"
                  +:+ boost_version +:+ ".git" |};
    {| dep_id := "398F6BEC057C4FE4B724153DF4EB8AE4";
       dep_name := "Common_cpp_Helpers";
       dep_configuration := "standard";
       dep_url := "https://github.com/davidbrownell/Common_cpp_Helpers.git" |} ].

Definition base (boost_version : string) : string * Configuration :=
  (boost_version,
   {| description := "boost " +:+ boost_version +:+ " (No compiler dependencies)";
      dependencies := deps boost_version "standard" |}).

Definition name (boost_version : string) (info : string * option string)
    (architecture : string) : string :=
  boost_version +:+ "_" +:+ info.1 +:+ "_" +:+ architecture +:+ or_str info.2 "".

Definition sub_configuration (info : string * option string)
    (architecture : string) : string :=
  info.1 +:+ "_" +:+ architecture +:+ or_str info.2 "".

Definition variant (boost_version : string) (info : string * option string)
    (architecture : string) : string * Configuration :=
  (name boost_version info architecture,
   {| description := "boost " +:+ boost_version +:+ " - " +:+ info.1 +:+ " ("
                     +:+ architecture +:+ or_str info.2 "" +:+ ")";
      dependencies := deps boost_version (sub_configuration info architecture) |}).

Definition variants (boost_version : string) (architectures : list string)
    (compiler_infos : list (string * option string))
    : list (string * Configuration) :=
  compiler_infos ≫= λ info, variant boost_version info <$> architectures.

Definition all (architectures : list string)
    (compiler_infos : list (string * option string))
    : list (string * Configuration) :=
  base "1.70.0" :: variants "1.70.0" architectures compiler_infos.

End Items.

(** ** Example processes *)

(** Some processes to run the module in. *)
Module Examples.

Definition windows : World :=
  {| environ := {[ "DEVELOPMENT_ENVIRONMENT_FUNDAMENTAL" := "C:\Code\Common_Environment" ]};
     directories := {[ "C:\Code\Common_Environment" ]};
     sys_path := [Some "C:\Python\Lib"];
     importable := λ path, bool_decide (Some "C:\Code\Common_Environment" ∈ path);
     CurrentShell := {| CategoryName := "Windows"; Architecture := "x64" |} |}.

Definition linux : World :=
  {| environ := {[ "DEVELOPMENT_ENVIRONMENT_FUNDAMENTAL" := "/opt/Common_Environment" ]};
     directories := {[ "/opt/Common_Environment"; "/usr/lib/python3" ]};
     sys_path := [Some "/usr/lib/python3"];
     importable := λ path, bool_decide (Some "/opt/Common_Environment" ∈ path);
     CurrentShell := {| CategoryName := "Linux"; Architecture := "x64" |} |}.

(** Another Linux process on the same platform. *)
Definition linux' : World :=
  {| environ := {[ "DEVELOPMENT_ENVIRONMENT_FUNDAMENTAL" := "/home/dev/ce";
                   "HOME" := "/home/dev" ]};
     directories := {[ "/home/dev"; "/home/dev/ce" ]};
     sys_path := [];
     importable := λ _, true;
     CurrentShell := {| CategoryName := "Linux"; Architecture := "x64" |} |}.

(** The variable is not set. *)
Definition unset : World :=
  {| environ := {[ "HOME" := "/home/dev" ]};
     directories := {[ "/home/dev" ]};
     sys_path := [Some "/usr/lib/python3"];
     importable := λ _, true;
     CurrentShell := {| CategoryName := "Linux"; Architecture := "x64" |} |}.

(** The variable names a path that is no directory. *)
Definition dangling : World :=
  {| environ := {[ "DEVELOPMENT_ENVIRONMENT_FUNDAMENTAL" := "/nowhere" ]};
     directories := {[ "/home/dev" ]};
     sys_path := [Some "/usr/lib/python3"];
     importable := λ _, true;
     CurrentShell := {| CategoryName := "Linux"; Architecture := "x64" |} |}.

(** A Windows process on the other architecture. *)
Definition windows_x86 : World :=
  {| environ := {[ "DEVELOPMENT_ENVIRONMENT_FUNDAMENTAL" := "D:\ce" ]};
     directories := {[ "D:\ce" ]};
     sys_path := [];
     importable := λ _, true;
     CurrentShell := {| CategoryName := "Windows"; Architecture := "x86" |} |}.

(** A Linux process on the other architecture. *)
Definition linux_x86 : World :=
  {| environ := {[ "DEVELOPMENT_ENVIRONMENT_FUNDAMENTAL" := "/opt/Common_Environment" ]};
     directories := {[ "/opt/Common_Environment" ]};
     sys_path := [Some "/usr/lib/python3"];
     importable := λ _, false;
     CurrentShell := {| CategoryName := "Linux"; Architecture := "x86" |} |}.

(** [posixpath.split]: the path up to its last slash, without the slashes
    that end it unless it is made of slashes, and what follows that slash. *)
Fixpoint all_slashes (s : string) : bool :=
  match s with
  | EmptyString => true
  | String c rest => Ascii.eqb c "/" && all_slashes rest
  end.

Fixpoint rstrip_slashes (s : string) : string :=
  match s with
  | EmptyString => EmptyString
  | String c rest =>
      match rstrip_slashes rest with
      | EmptyString => if Ascii.eqb c "/" then EmptyString else String c EmptyString
      | r => String c r
      end
  end.

Fixpoint split_last_slash (s : string) : string * string :=
  match s with
  | EmptyString => (EmptyString, EmptyString)
  | String c rest =>
      match split_last_slash rest with
      | (EmptyString, tail) =>
          if Ascii.eqb c "/" then ("/", tail) else (EmptyString, String c tail)
      | (head, tail) => (String c head, tail)
      end
  end.

Definition posixpath_split (p : string) : string * string :=
  let head_tail := split_last_slash p in
  (if all_slashes head_tail.1 then head_tail.1 else rstrip_slashes head_tail.1,
   head_tail.2).

(** A host whose framework is installed where the process says it is:
    [CommonEnvironment] is there, the script is /src/Setup_custom.py, and
    the packages of [RepositoryBootstrap] resolve as [importable] says,
    importing them changing nothing. *)
Definition host : Host :=
  {| assertions := true;
     import_CommonEnvironment := ret tt;
     ThisFullpath := ret "/src/Setup_custom.py";
     os_path_split := posixpath_split;
     import_RepositoryBootstrap :=
       λ w, if importable w (sys_path w)
            then Ok (tt, w) else Raise ImportError |}.

End Examples.

(** ** Lemmas on the Python primitives *)

Lemma append_nil_r (s : string) : s +:+ "" = s.
Proof.
  induction s as [|c s IH]; [done|].
  change (String c (s +:+ "") = String c s). by rewrite IH.
Qed.

Lemma format_name (v c a s : string) :
  format "{}_{}_{}{}" [v; c; a; s] = Ok (v +:+ "_" +:+ c +:+ "_" +:+ a +:+ s).
Proof. cbn. by rewrite append_nil_r. Qed.

Lemma format_sub_configuration (c a s : string) :
  format "{}_{}{}" [c; a; s] = Ok (c +:+ "_" +:+ a +:+ s).
Proof. cbn. by rewrite append_nil_r. Qed.

Lemma format_description (v c a s : string) :
  format "boost {} - {} ({}{})" [v; c; a; s]
  = Ok ("boost " +:+ v +:+ " - " +:+ c +:+ " (" +:+ a +:+ s +:+ ")").
Proof. reflexivity. Qed.

Lemma format_boost_name (v : string) :
  format "Common_cpp_boost_{}" [v] = Ok ("Common_cpp_boost_" +:+ v).
Proof. cbn. by rewrite append_nil_r. Qed.

Lemma format_boost_url (v : string) :
  format "https://github.com/davidbrownell/Common_cpp_boost_{}.git" [v]
  = Ok ("https://github.com/davidbrownell/Common_cpp_boost_" +:+ v +:+ ".git").
Proof. reflexivity. Qed.

Lemma format_base_description (v : string) :
  format "boost {} (No compiler dependencies)" [v]
  = Ok ("boost " +:+ v +:+ " (No compiler dependencies)").
Proof. reflexivity. Qed.

Example format_escapes : format "{{}}{}" ["x"] = Ok "{}x".
Proof. reflexivity. Qed.

Example format_missing_argument : format "{}_{}" ["x"] = Raise IndexError.
Proof. reflexivity. Qed.

Example format_lone_brace : format "x}" ["x"] = Raise ValueError.
Proof. reflexivity. Qed.

(** The name does not tell the compiler from the architecture in general:
    it does so on the candidates of a platform
    ([GetDependencies_names_unique] below). *)
Example name_not_injective :
  Items.name "1.70.0" ("MSVC", None) "2019_x64"
  = Items.name "1.70.0" ("MSVC_2019", None) "x64".
Proof. reflexivity. Qed.

(** ** Lemmas on the dictionary *)

Module OrderedDictFacts.
Import OrderedDict.

Example setitem_existing (v1 v2 v3 : Configuration) :
  setitem [("a", v1); ("b", v2)] "a" v3 = [("a", v3); ("b", v2)].
Proof. reflexivity. Qed.

Example setitem_new (v1 v2 v3 : Configuration) :
  setitem [("a", v1); ("b", v2)] "c" v3 = [("a", v1); ("b", v2); ("c", v3)].
Proof. reflexivity. Qed.

Lemma setitem_fresh (d : t) (k : string) (v : Configuration) :
  k ∉ keys d → setitem d k v = d ++ [(k, v)].
Proof.
  unfold keys. induction d as [|[k' v'] d IH]; intros Hk; simpl; [done|].
  rewrite fmap_cons, not_elem_of_cons in Hk. destruct Hk as [Hne Hk].
  destruct (String.eqb_spec k' k) as [->|_]; [done|].
  by rewrite IH.
Qed.

Lemma get_Some_elem (d : t) (k : string) (v : Configuration) :
  get d k = Some v → (k, v) ∈ d.
Proof.
  induction d as [|[k' v'] d IH]; simpl; [done|].
  destruct (String.eqb_spec k' k) as [->|_].
  - intros [= ->]. apply list_elem_of_here.
  - intros H. apply list_elem_of_further. auto.
Qed.

Lemma get_elem_NoDup (d : t) (k : string) (v : Configuration) :
  NoDup (keys d) → (k, v) ∈ d → get d k = Some v.
Proof.
  unfold keys. induction d as [|[k' v'] d IH]; simpl.
  - intros _ H. by apply elem_of_nil in H.
  - rewrite NoDup_cons. intros [Hk' Hnd] Hin.
    apply elem_of_cons in Hin as [[= -> ->]|Hin].
    + by rewrite String.eqb_refl.
    + destruct (String.eqb_spec k' k) as [->|_]; [|by apply IH].
      exfalso. apply Hk'. apply list_elem_of_fmap. by exists (k, v).
Qed.

Lemma update_app (d : t) (l1 l2 : list (string * Configuration)) :
  update d (l1 ++ l2) = update (update d l1) l2.
Proof. apply foldl_app. Qed.

Lemma update_fresh (d : t) (items : list (string * Configuration)) :
  NoDup (keys d ++ items.*1) → update d items = d ++ items.
Proof.
  unfold keys. revert d. induction items as [|[k v] items IH]; intros d Hnd; simpl.
  - by rewrite app_nil_r.
  - rewrite fmap_cons in Hnd. simpl in Hnd.
    assert (k ∉ d.*1) as Hk.
    { apply NoDup_app in Hnd as (_ & Hd & _). intros Hin.
      apply (Hd _ Hin). apply list_elem_of_here. }
    rewrite setitem_fresh by done. rewrite IH.
    + by rewrite <- app_assoc.
    + by rewrite fmap_app, <- app_assoc.
Qed.

End OrderedDictFacts.

(** ** The loops *)

Section loops.
Import OrderedDict OrderedDictFacts.
Context {A : Type}.

(** A loop whose body stores one item per element. *)
Lemma for_each_setitem (g : A → string * Configuration)
    (body : A → t → M t) (xs : list A) (d : t) (w : World) :
  (∀ x d w, body x d w = Ok (setitem d (g x).1 (g x).2, w)) →
  for_each xs body d w = Ok (update d (g <$> xs), w).
Proof.
  intros Hbody. revert d. induction xs as [|x xs IH]; intros d; simpl; [done|].
  unfold bind. rewrite Hbody. apply IH.
Qed.

(** A loop whose body stores a list of items per element. *)
Lemma for_each_update (g : A → list (string * Configuration))
    (body : A → t → M t) (xs : list A) (d : t) (w : World) :
  (∀ x d w, body x d w = Ok (update d (g x), w)) →
  for_each xs body d w = Ok (update d (xs ≫= g), w).
Proof.
  intros Hbody. revert d. induction xs as [|x xs IH]; intros d; simpl; [done|].
  unfold bind. rewrite Hbody, IH. by rewrite update_app.
Qed.
End loops.

(** Runs the [format] calls at the head of a computation. *)
Ltac run_format :=
  repeat (progress
    (rewrite ?format_base_description, ?format_boost_name, ?format_boost_url,
       ?format_name, ?format_description, ?format_sub_configuration;
     cbv beta iota)).

(** [populate] always returns, leaves the process as it was, and stores the
    items of the comprehension one after the other. *)
Lemma populate_update (architectures : list string)
    (compiler_infos : list (string * option string)) (w : World) :
  populate architectures compiler_infos w
  = Ok (OrderedDict.update OrderedDict.empty
          (Items.all architectures compiler_infos), w).
Proof.
  unfold populate. cbn [for_each]. unfold bind, lift, ret. run_format.
  rewrite (for_each_update
             (λ info, Items.variant "1.70.0" info <$> architectures)).
  - reflexivity.
  - intros info d w'. apply for_each_setitem. intros a d' w''.
    run_format. reflexivity.
Qed.

(** When no name comes twice, the dictionary is the comprehension itself. *)
Lemma populate_items (architectures : list string)
    (compiler_infos : list (string * option string)) (w : World) :
  NoDup (Items.all architectures compiler_infos).*1 →
  populate architectures compiler_infos w
  = Ok (Items.all architectures compiler_infos, w).
Proof.
  intros Hnd. rewrite populate_update.
  by rewrite OrderedDictFacts.update_fresh.
Qed.

(** ** The candidates of a platform *)

Lemma candidates_Windows (w : World) :
  CategoryName (CurrentShell w) = "Windows" →
  candidates w
  = Ok ((["x64"; "x86"], [("MSVC_2019", None); ("Clang_10", Some "_ex")]), w).
Proof.
  intros H. unfold candidates, bind, CurrentShell_CategoryName. by rewrite H.
Qed.

Lemma candidates_other (w : World) :
  CategoryName (CurrentShell w) ≠ "Windows" →
  candidates w
  = Ok (([Architecture (CurrentShell w)], [("Clang_10", Some "_ex")]), w).
Proof.
  intros H. unfold candidates, bind, CurrentShell_CategoryName.
  by destruct (String.eqb_spec (CategoryName (CurrentShell w)) "Windows").
Qed.

Lemma GetDependencies_candidates (w : World)
    (architectures : list string)
    (compiler_infos : list (string * option string)) :
  candidates w = Ok ((architectures, compiler_infos), w) →
  NoDup (Items.all architectures compiler_infos).*1 →
  GetDependencies w = Ok (Items.all architectures compiler_infos, w).
Proof.
  intros Hc Hnd. unfold GetDependencies, bind. rewrite Hc. simpl.
  by apply populate_items.
Qed.

Lemma NoDup_Windows :
  NoDup (Items.all ["x64"; "x86"]
           [("MSVC_2019", None); ("Clang_10", Some "_ex")]).*1.
Proof. apply (bool_decide_unpack _). vm_compute. reflexivity. Qed.

Lemma name_not_version (info : string * option string) (a : string) :
  Items.name "1.70.0" info a ≠ "1.70.0".
Proof. unfold Items.name. intros H. vm_compute in H. discriminate H. Qed.

Lemma NoDup_other (a : string) :
  NoDup (Items.all [a] [("Clang_10", Some "_ex")]).*1.
Proof.
  apply NoDup_cons. split; [|apply NoDup_singleton].
  intros H. apply list_elem_of_singleton in H. symmetry in H.
  by apply name_not_version in H.
Qed.

(** ** What [GetDependencies] returns *)

(** [GetDependencies] always returns: the comprehension over the candidates
    of the platform, whose names are pairwise distinct, the process left as
    it was. *)
Lemma GetDependencies_run (w : World) :
  ∃ architectures compiler_infos,
    candidates w = Ok ((architectures, compiler_infos), w)
    ∧ NoDup (Items.all architectures compiler_infos).*1
    ∧ GetDependencies w = Ok (Items.all architectures compiler_infos, w).
Proof.
  destruct (decide (CategoryName (CurrentShell w) = "Windows")) as [H|H].
  - eexists _, _. split; [by apply candidates_Windows|].
    split; [apply NoDup_Windows|].
    apply GetDependencies_candidates; [by apply candidates_Windows|].
    apply NoDup_Windows.
  - eexists _, _. split; [by apply candidates_other|].
    split; [apply NoDup_other|].
    apply GetDependencies_candidates; [by apply candidates_other|].
    apply NoDup_other.
Qed.

Lemma elem_of_all (architectures : list string)
    (compiler_infos : list (string * option string))
    (item : string * Configuration) :
  item ∈ Items.all architectures compiler_infos ↔
  item = Items.base "1.70.0"
  ∨ ∃ info a, info ∈ compiler_infos ∧ a ∈ architectures
              ∧ item = Items.variant "1.70.0" info a.
Proof.
  unfold Items.all, Items.variants. rewrite elem_of_cons, list_elem_of_bind.
  split; (intros [?|H]; [by left|right]).
  - destruct H as (info & Hin & Hinfo).
    apply list_elem_of_fmap in Hin as (a & -> & Ha). by exists info, a.
  - destruct H as (info & a & Hinfo & Ha & ->).
    exists info. split; [|done]. by apply list_elem_of_fmap_2.
Qed.

Lemma or_str_default (x : option string) : or_str x "" = default "" x.
Proof. by destruct x as [[|c s]|]. Qed.

(** ** The claims *)

(** C1. On Windows [GetDependencies] returns a dictionary whose keys are, in
    this order, "1.70.0", "1.70.0_MSVC_2019_x64", "1.70.0_MSVC_2019_x86",
    "1.70.0_Clang_10_x64_ex" and "1.70.0_Clang_10_x86_ex". *)
Theorem GetDependencies_Windows_keys (w : World) :
  CategoryName (CurrentShell w) = "Windows" →
  ∃ d, GetDependencies w = Ok (d, w)
       ∧ OrderedDict.keys d
         = ["1.70.0"; "1.70.0_MSVC_2019_x64"; "1.70.0_MSVC_2019_x86";
            "1.70.0_Clang_10_x64_ex"; "1.70.0_Clang_10_x86_ex"].
Proof.
  intros H. eexists. split.
  - apply GetDependencies_candidates; [by apply candidates_Windows|].
    apply NoDup_Windows.
  - reflexivity.
Qed.

Lemma GetDependencies_Windows_keys_witness :
  ∃ d, GetDependencies Examples.windows = Ok (d, Examples.windows)
       ∧ OrderedDict.keys d
         = ["1.70.0"; "1.70.0_MSVC_2019_x64"; "1.70.0_MSVC_2019_x86";
            "1.70.0_Clang_10_x64_ex"; "1.70.0_Clang_10_x86_ex"].
Proof. apply (GetDependencies_Windows_keys Examples.windows). reflexivity. Defined.

(** C2. Off Windows the candidates are the detected architecture alone and
    the pair ("Clang_10", "_ex") alone, and [GetDependencies] returns a
    dictionary whose keys are exactly "1.70.0" and
    "1.70.0_Clang_10_<detected architecture>_ex": one variant for the
    pair, of the detected architecture. *)
Theorem GetDependencies_other_keys (w : World) :
  CategoryName (CurrentShell w) ≠ "Windows" →
  candidates w
  = Ok (([Architecture (CurrentShell w)], [("Clang_10", Some "_ex")]), w)
  ∧ ∃ d, GetDependencies w = Ok (d, w)
         ∧ OrderedDict.keys d
           = ["1.70.0";
              "1.70.0_Clang_10_" +:+ Architecture (CurrentShell w) +:+ "_ex"].
Proof.
  intros H. split; [by apply candidates_other|]. eexists. split.
  - apply GetDependencies_candidates; [by apply candidates_other|].
    apply NoDup_other.
  - reflexivity.
Qed.

Lemma GetDependencies_other_keys_witness :
  candidates Examples.linux
  = Ok ((["x64"], [("Clang_10", Some "_ex")]), Examples.linux)
  ∧ ∃ d, GetDependencies Examples.linux = Ok (d, Examples.linux)
         ∧ OrderedDict.keys d = ["1.70.0"; "1.70.0_Clang_10_x64_ex"].
Proof. apply (GetDependencies_other_keys Examples.linux). discriminate. Defined.

Section loading.
Context {Action A B C : Type}.

(** Lines 45-46, case by case. *)
Lemma check_fundamental_repo_cases (host : Host) (w : World) :
  check_fundamental_repo host w
  = if assertions host then
      match environ w !! "DEVELOPMENT_ENVIRONMENT_FUNDAMENTAL" with
      | None => Raise TypeError
      | Some p =>
          if bool_decide (p ∈ directories w) then Ok (Some p, w)
          else Raise (AssertionError (Some p))
      end
    else Ok (environ w !! "DEVELOPMENT_ENVIRONMENT_FUNDAMENTAL", w).
Proof.
  unfold check_fundamental_repo, assert_statement, bind, os_getenv.
  destruct (assertions host); [|done].
  destruct (environ w !! "DEVELOPMENT_ENVIRONMENT_FUNDAMENTAL") as [p|];
    [|done].
  simpl. by destruct (bool_decide (p ∈ directories w)).
Qed.

(** Once lines 30-34 have passed, the module's body goes on with the
    check. *)
Lemma load_script_location (host : Host) (w w1 : World)
    (location : string * string * string) :
  script_location host w = Ok (location, w1) →
  load (Action:=Action) (A:=A) (B:=B) (C:=C) host w
  = match check_fundamental_repo host w1 with
    | Ok (fundamental_repo, w2) =>
        (sys_path_insert0 fundamental_repo ;;;
         import_RepositoryBootstrap host ;;;
         sys_path_del0 ;;;
         ret {| mod_GetDependencies := GetDependencies;
                mod_GetCustomActions := GetCustomActions |}) w2
    | Raise e => Raise e
    end.
Proof. intros H. unfold load. unfold bind at 1. by rewrite H. Qed.

(** C3, on the code. With assertions on and lines 30-34 passed, loading the
    module where DEVELOPMENT_ENVIRONMENT_FUNDAMENTAL is not set ends in the
    [TypeError] of [os.path.isdir(None)], not in the assertion failure of
    the claim; where the variable is set and names no existing directory it
    ends, as the claim has it, in an [AssertionError] whose message is the
    path. In both cases no module is returned: [GetDependencies] and
    [GetCustomActions] are not bound. *)
Theorem load_check_raises (host : Host) (w w1 : World)
    (location : string * string * string) :
  assertions host = true →
  script_location host w = Ok (location, w1) →
  (environ w1 !! "DEVELOPMENT_ENVIRONMENT_FUNDAMENTAL" = None →
     load (Action:=Action) (A:=A) (B:=B) (C:=C) host w = Raise TypeError)
  ∧ (∀ p, environ w1 !! "DEVELOPMENT_ENVIRONMENT_FUNDAMENTAL" = Some p →
       p ∉ directories w1 →
       load (Action:=Action) (A:=A) (B:=B) (C:=C) host w
       = Raise (AssertionError (Some p))).
Proof.
  intros Hassert Hloc.
  rewrite (load_script_location host w w1 location Hloc).
  rewrite check_fundamental_repo_cases, Hassert. split.
  - by intros ->.
  - intros p -> Hp. by rewrite bool_decide_eq_false_2.
Qed.
End loading.

Lemma load_check_raises_witness :
  load (Action:=string) (A:=bool) (B:=bool) (C:=list string)
    Examples.host Examples.unset
  = Raise TypeError
  ∧ load (Action:=string) (A:=bool) (B:=bool) (C:=list string)
      Examples.host Examples.dangling
    = Raise (AssertionError (Some "/nowhere")).
Proof.
  split.
  - apply (load_check_raises Examples.host Examples.unset Examples.unset
             ("/src/Setup_custom.py", "/src", "Setup_custom.py"));
      [reflexivity | reflexivity | vm_compute; reflexivity].
  - apply (load_check_raises Examples.host Examples.dangling Examples.dangling
             ("/src/Setup_custom.py", "/src", "Setup_custom.py"));
      [reflexivity | reflexivity | vm_compute; reflexivity |].
    apply (bool_decide_eq_false_1 _). vm_compute. reflexivity.
Defined.

(** C4. On every platform, the dictionary [GetDependencies] returns holds,
    for every candidate compiler pair and architecture, a configuration
    under the name of that compiler and architecture; and every
    configuration that is not the one of the version alone is such a one. Its
    dependencies are Common_cpp_boost_1.70.0 with the sub-configuration
    "<compiler>_<architecture><suffix>" (no suffix when the pair has
    [None]) and Common_cpp_Helpers with "standard". *)
Theorem GetDependencies_variant_dependencies (w : World) :
  ∃ architectures compiler_infos d,
    candidates w = Ok ((architectures, compiler_infos), w)
    ∧ GetDependencies w = Ok (d, w)
    ∧ (∀ compiler suffix architecture,
         (compiler, suffix) ∈ compiler_infos → architecture ∈ architectures →
         is_Some (OrderedDict.get d
                    ("1.70.0_" +:+ compiler +:+ "_" +:+ architecture
                     +:+ default "" suffix)))
    ∧ (∀ name cfg,
         OrderedDict.get d name = Some cfg → name ≠ "1.70.0" →
         ∃ compiler suffix architecture boost helpers,
           (compiler, suffix) ∈ compiler_infos ∧ architecture ∈ architectures
           ∧ name = "1.70.0_" +:+ compiler +:+ "_" +:+ architecture
                    +:+ default "" suffix
           ∧ dependencies cfg = [boost; helpers]
           ∧ dep_name boost = "Common_cpp_boost_1.70.0"
           ∧ dep_configuration boost
             = compiler +:+ "_" +:+ architecture +:+ default "" suffix
           ∧ dep_name helpers = "Common_cpp_Helpers"
           ∧ dep_configuration helpers = "standard").
Proof.
  destruct (GetDependencies_run w) as (archs & cis & Hc & Hnd & Hd).
  exists archs, cis, (Items.all archs cis). split; [done|]. split; [done|].
  split.
  - intros compiler suffix a Hinfo Ha.
    exists (Items.variant "1.70.0" (compiler, suffix) a).2.
    apply OrderedDictFacts.get_elem_NoDup; [done|].
    apply elem_of_all. right. exists (compiler, suffix), a.
    split; [done|]. split; [done|].
    unfold Items.variant, Items.name. simpl. by rewrite or_str_default.
  - intros name cfg Hget Hname.
    apply OrderedDictFacts.get_Some_elem, elem_of_all in Hget
      as [[= -> ->]|([compiler suffix] & a & Hinfo & Ha & [= -> ->])]; [done|].
    eexists compiler, suffix, a, _, _. split; [done|]. split; [done|].
    unfold Items.name, Items.sub_configuration. simpl.
    rewrite or_str_default. by repeat split.
Qed.

(** C5. On every platform, the configuration under "1.70.0" has two
    dependencies, both on the sub-configuration "standard". *)
Theorem GetDependencies_base_standard (w : World) :
  ∃ d cfg boost helpers,
    GetDependencies w = Ok (d, w)
    ∧ OrderedDict.get d "1.70.0" = Some cfg
    ∧ dependencies cfg = [boost; helpers]
    ∧ dep_configuration boost = "standard"
    ∧ dep_configuration helpers = "standard".
Proof.
  destruct (GetDependencies_run w) as (archs & cis & _ & _ & Hd).
  by eexists (Items.all archs cis), _, _, _.
Qed.

(** C6. Whatever its arguments, [GetCustomActions] returns the empty list
    and leaves the process as it was. *)
Theorem GetCustomActions_empty {Action A B C : Type}
    (debug : A) (verbose : B) (explicit_configurations : C) (w : World) :
  GetCustomActions (Action:=Action) debug verbose explicit_configurations w
  = Ok ([], w).
Proof. reflexivity. Qed.

(** *** Names without repetition *)

Lemma NoDup_fmap_inj_on {X Y : Type} (f : X → Y) (l : list X) :
  NoDup (f <$> l) → ∀ x y, x ∈ l → y ∈ l → f x = f y → x = y.
Proof.
  induction l as [|z l IH]; intros Hnd x y Hx Hy Hxy.
  - by apply elem_of_nil in Hx.
  - rewrite fmap_cons in Hnd. apply NoDup_cons in Hnd as [Hz Hnd].
    apply elem_of_cons in Hx as [->|Hx]; apply elem_of_cons in Hy as [->|Hy].
    + done.
    + exfalso. apply Hz. rewrite Hxy. by apply list_elem_of_fmap_2.
    + exfalso. apply Hz. rewrite <- Hxy. by apply list_elem_of_fmap_2.
    + by apply IH.
Qed.

Lemma NoDup_bind_fmap_inj_on {X Y Z : Type} (g : X → Y → Z)
    (xs : list X) (ys : list Y) :
  NoDup (xs ≫= λ x, g x <$> ys) →
  ∀ x1 y1 x2 y2, x1 ∈ xs → y1 ∈ ys → x2 ∈ xs → y2 ∈ ys →
    g x1 y1 = g x2 y2 → x1 = x2 ∧ y1 = y2.
Proof.
  induction xs as [|x xs IH]; intros Hnd x1 y1 x2 y2 Hx1 Hy1 Hx2 Hy2 Hg.
  - by apply elem_of_nil in Hx1.
  - change (NoDup ((g x <$> ys) ++ (xs ≫= λ x, g x <$> ys))) in Hnd.
    apply NoDup_app in Hnd as (Hhd & Hdisj & Htl).
    assert (∀ x' y', x' ∈ xs → y' ∈ ys → g x' y' ∈ xs ≫= λ x, g x <$> ys)
      as Htail.
    { intros x' y' Hx' Hy'. apply list_elem_of_bind. exists x'.
      split; [|done]. by apply list_elem_of_fmap_2. }
    apply elem_of_cons in Hx1 as [->|Hx1]; apply elem_of_cons in Hx2 as [->|Hx2].
    + split; [done|]. by apply (NoDup_fmap_inj_on (g x) ys).
    + exfalso. apply (Hdisj (g x y1)); [by apply list_elem_of_fmap_2|].
      rewrite Hg. by apply Htail.
    + exfalso. apply (Hdisj (g x y2)); [by apply list_elem_of_fmap_2|].
      rewrite <- Hg. by apply Htail.
    + by apply IH.
Qed.

Lemma keys_all (architectures : list string)
    (compiler_infos : list (string * option string)) :
  (Items.all architectures compiler_infos).*1
  = "1.70.0" :: (compiler_infos ≫= λ info,
                   Items.name "1.70.0" info <$> architectures).
Proof.
  unfold Items.all, Items.variants. rewrite fmap_cons. f_equal.
  induction compiler_infos as [|info cis IH]; [done|].
  change ((((Items.variant "1.70.0" info <$> architectures)
            ++ (cis ≫= λ info, Items.variant "1.70.0" info <$> architectures)).*1)
          = (Items.name "1.70.0" info <$> architectures)
            ++ (cis ≫= λ info, Items.name "1.70.0" info <$> architectures)).
  rewrite fmap_app, IH. f_equal. by rewrite <- list_fmap_compose.
Qed.

(** C7. On every platform the names of the dictionary [GetDependencies]
    returns are pairwise distinct. They are "1.70.0" and then the name of
    every candidate (compiler, suffix, architecture); two different
    candidates never have the same name, and none has the name "1.70.0". *)
Theorem GetDependencies_names_unique (w : World) :
  ∃ architectures compiler_infos d,
    candidates w = Ok ((architectures, compiler_infos), w)
    ∧ GetDependencies w = Ok (d, w)
    ∧ NoDup (OrderedDict.keys d)
    ∧ OrderedDict.keys d
      = "1.70.0" :: (compiler_infos ≫= λ info,
                       Items.name "1.70.0" info <$> architectures)
    ∧ (∀ info1 a1 info2 a2,
         info1 ∈ compiler_infos → a1 ∈ architectures →
         info2 ∈ compiler_infos → a2 ∈ architectures →
         Items.name "1.70.0" info1 a1 = Items.name "1.70.0" info2 a2 →
         info1 = info2 ∧ a1 = a2)
    ∧ (∀ info a,
         info ∈ compiler_infos → a ∈ architectures →
         Items.name "1.70.0" info a ≠ "1.70.0").
Proof.
  destruct (GetDependencies_run w) as (archs & cis & Hc & Hnd & Hd).
  exists archs, cis, (Items.all archs cis). split; [done|]. split; [done|].
  split; [done|]. split; [apply keys_all|].
  rewrite keys_all in Hnd. apply NoDup_cons in Hnd as [_ Hnd]. split.
  - by apply NoDup_bind_fmap_inj_on.
  - intros info a _ _. apply name_not_version.
Qed.

(** C8. On every platform, in every configuration of the dictionary
    [GetDependencies] returns, a dependency is either the identifier
    407DD743110A4FB1871AEF60CBEC99A0 with the name Common_cpp_boost_1.70.0
    or the identifier 398F6BEC057C4FE4B724153DF4EB8AE4 with the name
    Common_cpp_Helpers; and two configurations have the same dependencies
    up to the sub-configurations. *)
Theorem GetDependencies_dependency_identity (w : World) :
  ∃ d,
    GetDependencies w = Ok (d, w)
    ∧ (∀ name cfg dep,
         (name, cfg) ∈ d → dep ∈ dependencies cfg →
         (dep_id dep = "407DD743110A4FB1871AEF60CBEC99A0"
          ∧ dep_name dep = "Common_cpp_boost_1.70.0")
         ∨ (dep_id dep = "398F6BEC057C4FE4B724153DF4EB8AE4"
            ∧ dep_name dep = "Common_cpp_Helpers"))
    ∧ (∀ name1 cfg1 name2 cfg2,
         (name1, cfg1) ∈ d → (name2, cfg2) ∈ d →
         (λ dep, (dep_id dep, dep_name dep, dep_url dep)) <$> dependencies cfg1
         = (λ dep, (dep_id dep, dep_name dep, dep_url dep)) <$> dependencies cfg2).
Proof.
  destruct (GetDependencies_run w) as (archs & cis & _ & _ & Hd).
  exists (Items.all archs cis). split; [done|]. split.
  - intros name cfg dep Hcfg Hdep.
    apply elem_of_all in Hcfg as [[= -> ->]|(info & a & _ & _ & [= -> ->])];
      simpl in Hdep; unfold Items.deps in Hdep;
      apply elem_of_cons in Hdep as [->|Hdep];
      try (by left); apply list_elem_of_singleton in Hdep as ->; by right.
  - intros name1 cfg1 name2 cfg2 H1 H2.
    apply elem_of_all in H1 as [[= -> ->]|(info1 & a1 & _ & _ & [= -> ->])];
      apply elem_of_all in H2 as [[= -> ->]|(info2 & a2 & _ & _ & [= -> ->])];
      reflexivity.
Qed.

(** C9. Two runs of [GetDependencies] on the same platform (the same
    category name, the same architecture) return the same dictionary,
    whatever else differs between the two processes, and each leaves its
    process as it was. *)
Theorem GetDependencies_deterministic (w1 w2 : World) :
  CategoryName (CurrentShell w1) = CategoryName (CurrentShell w2) →
  Architecture (CurrentShell w1) = Architecture (CurrentShell w2) →
  ∃ d, GetDependencies w1 = Ok (d, w1) ∧ GetDependencies w2 = Ok (d, w2).
Proof.
  intros Hcat Harch.
  destruct (decide (CategoryName (CurrentShell w1) = "Windows")) as [H|H].
  - eexists. split;
      (apply GetDependencies_candidates;
       [apply candidates_Windows; congruence | apply NoDup_Windows]).
  - exists (Items.all [Architecture (CurrentShell w1)] [("Clang_10", Some "_ex")]).
    split; [|rewrite Harch];
      (apply GetDependencies_candidates;
       [apply candidates_other; congruence | apply NoDup_other]).
Qed.

Lemma GetDependencies_deterministic_witness :
  ∃ d, GetDependencies Examples.linux = Ok (d, Examples.linux)
       ∧ GetDependencies Examples.linux' = Ok (d, Examples.linux').
Proof.
  apply (GetDependencies_deterministic Examples.linux Examples.linux');
    reflexivity.
Defined.

(** C10. On every platform, every configuration of the dictionary
    [GetDependencies] returns has exactly two dependencies: first
    Common_cpp_boost_1.70.0, then Common_cpp_Helpers, each with its
    identifier and its URL, the same in every configuration. *)
Theorem GetDependencies_two_dependencies (w : World) :
  ∃ d,
    GetDependencies w = Ok (d, w)
    ∧ ∀ name cfg,
        (name, cfg) ∈ d →
        ∃ conf,
          dependencies cfg
          = [ {| dep_id := "407DD743110A4FB1871AEF60CBEC99A0";
                 dep_name := "Common_cpp_boost_1.70.0";
                 dep_configuration := conf;
                 dep_url := "https://github.com/davidbrownell/Common_cpp_boost_1.70.0.git" |};
              {| dep_id := "398F6BEC057C4FE4B724153DF4EB8AE4";
                 dep_name := "Common_cpp_Helpers";
                 dep_configuration := "standard";
                 dep_url := "https://github.com/davidbrownell/Common_cpp_Helpers.git" |} ].
Proof.
  destruct (GetDependencies_run w) as (archs & cis & _ & _ & Hd).
  exists (Items.all archs cis). split; [done|].
  intros name cfg Hcfg.
  apply elem_of_all in Hcfg as [[= -> ->]|(info & a & _ & _ & [= -> ->])];
    by eexists.
Qed.

(** ** Further properties of the module *)

(** *** Strings *)

Lemma append_inj_l (p s1 s2 : string) : p +:+ s1 = p +:+ s2 → s1 = s2.
Proof.
  induction p as [|c p IH]; [done|].
  change (String c (p +:+ s1) = String c (p +:+ s2) → s1 = s2).
  intros [= H]. by apply IH.
Qed.

Lemma length_append (s1 s2 : string) :
  String.length (s1 +:+ s2) = String.length s1 + String.length s2.
Proof.
  induction s1 as [|c s1 IH]; [done|].
  change (S (String.length (s1 +:+ s2))
          = S (String.length s1 + String.length s2)).
  by rewrite IH.
Qed.

Lemma append_inj_r (s1 s2 t : string) : s1 +:+ t = s2 +:+ t → s1 = s2.
Proof.
  revert s2. induction s1 as [|c1 s1 IH]; intros [|c2 s2] H.
  - done.
  - apply (f_equal String.length) in H.
    change (String c2 s2 +:+ t) with (String c2 (s2 +:+ t)) in H.
    change ("" +:+ t) with t in H. simpl in H. rewrite length_append in H. lia.
  - apply (f_equal String.length) in H.
    change (String c1 s1 +:+ t) with (String c1 (s1 +:+ t)) in H.
    change ("" +:+ t) with t in H. simpl in H. rewrite length_append in H. lia.
  - change (String c1 (s1 +:+ t) = String c2 (s2 +:+ t)) in H.
    injection H as -> H. f_equal. by apply IH.
Qed.

(** The name of a candidate tells its architecture. *)
Lemma name_inj_architecture (a1 a2 : string) :
  Items.name "1.70.0" ("Clang_10", Some "_ex") a1
  = Items.name "1.70.0" ("Clang_10", Some "_ex") a2 →
  a1 = a2.
Proof.
  unfold Items.name. simpl. intros H.
  do 4 apply append_inj_l in H. by apply append_inj_r in H.
Qed.

Lemma candidates_compilers (w : World) (architectures : list string)
    (compiler_infos : list (string * option string))
    (info : string * option string) :
  candidates w = Ok ((architectures, compiler_infos), w) →
  info ∈ compiler_infos →
  info = ("MSVC_2019", None) ∨ info = ("Clang_10", Some "_ex").
Proof.
  intros Hc Hinfo.
  destruct (decide (CategoryName (CurrentShell w) = "Windows")) as [H|H].
  - rewrite (candidates_Windows w H) in Hc. injection Hc as <- <-.
    apply elem_of_cons in Hinfo as [->|Hinfo]; [by left|].
    apply list_elem_of_singleton in Hinfo as ->. by right.
  - rewrite (candidates_other w H) in Hc. injection Hc as <- <-.
    apply list_elem_of_singleton in Hinfo as ->. by right.
Qed.

(** *** [GetDependencies] *)

(** X1. On every platform, whatever the architecture string, no [format]
    call of [GetDependencies] fails: it returns a dictionary, of five
    configurations on Windows and of two elsewhere, and leaves the process
    as it was. *)
Theorem GetDependencies_never_raises (w : World) :
  ∃ d, GetDependencies w = Ok (d, w)
       ∧ length d
         = if String.eqb (CategoryName (CurrentShell w)) "Windows"
           then 5 else 2.
Proof.
  destruct (String.eqb_spec (CategoryName (CurrentShell w)) "Windows")
    as [H|H].
  - eexists. split.
    + apply GetDependencies_candidates;
        [by apply candidates_Windows | apply NoDup_Windows].
    + reflexivity.
  - eexists. split.
    + apply GetDependencies_candidates;
        [by apply candidates_other | apply NoDup_other].
    + reflexivity.
Qed.

(** X2. The dictionary depends on the platform only through whether its
    category is Windows and, off Windows, through its architecture: on
    Windows the detected architecture plays no part, and off Windows the
    category name plays none. *)
Theorem GetDependencies_platform_only (w1 w2 : World) :
  (CategoryName (CurrentShell w1) = "Windows"
   ↔ CategoryName (CurrentShell w2) = "Windows") →
  (CategoryName (CurrentShell w1) ≠ "Windows" →
   Architecture (CurrentShell w1) = Architecture (CurrentShell w2)) →
  ∃ d, GetDependencies w1 = Ok (d, w1) ∧ GetDependencies w2 = Ok (d, w2).
Proof.
  intros Hcat Harch.
  destruct (decide (CategoryName (CurrentShell w1) = "Windows")) as [H|H].
  - eexists. split;
      (apply GetDependencies_candidates;
       [apply candidates_Windows; tauto | apply NoDup_Windows]).
  - exists (Items.all [Architecture (CurrentShell w1)] [("Clang_10", Some "_ex")]).
    split; [|rewrite (Harch H)];
      (apply GetDependencies_candidates;
       [apply candidates_other; tauto | apply NoDup_other]).
Qed.

Lemma GetDependencies_platform_only_witness :
  ∃ d, GetDependencies Examples.windows = Ok (d, Examples.windows)
       ∧ GetDependencies Examples.windows_x86 = Ok (d, Examples.windows_x86).
Proof.
  apply (GetDependencies_platform_only Examples.windows Examples.windows_x86).
  - split; reflexivity.
  - intros H. exfalso. apply H. reflexivity.
Defined.

(** X3. Off Windows the names of the dictionary tell the architecture: two
    runs on different architectures return dictionaries with different
    names. *)
Theorem GetDependencies_architecture_in_names (w1 w2 : World)
    (d1 d2 : OrderedDict.t) :
  CategoryName (CurrentShell w1) ≠ "Windows" →
  CategoryName (CurrentShell w2) ≠ "Windows" →
  GetDependencies w1 = Ok (d1, w1) →
  GetDependencies w2 = Ok (d2, w2) →
  OrderedDict.keys d1 = OrderedDict.keys d2 →
  Architecture (CurrentShell w1) = Architecture (CurrentShell w2).
Proof.
  intros H1 H2 Hd1 Hd2 Hkeys.
  rewrite (GetDependencies_candidates w1 _ _ (candidates_other w1 H1)
             (NoDup_other _)) in Hd1.
  rewrite (GetDependencies_candidates w2 _ _ (candidates_other w2 H2)
             (NoDup_other _)) in Hd2.
  injection Hd1 as <-. injection Hd2 as <-.
  unfold OrderedDict.keys in Hkeys. rewrite !keys_all in Hkeys.
  apply (f_equal (λ names, names !! 1)) in Hkeys. simpl in Hkeys.
  apply name_inj_architecture. congruence.
Qed.

Lemma GetDependencies_architecture_in_names_witness :
  Architecture (CurrentShell Examples.linux)
  = Architecture (CurrentShell Examples.linux').
Proof.
  apply (GetDependencies_architecture_in_names Examples.linux Examples.linux'
           (Items.all ["x64"] [("Clang_10", Some "_ex")])
           (Items.all ["x64"] [("Clang_10", Some "_ex")])).
  - discriminate.
  - discriminate.
  - reflexivity.
  - reflexivity.
  - reflexivity.
Defined.

(** X4. The description of the configuration "1.70.0" is
    "boost 1.70.0 (No compiler dependencies)", and the description of the
    configuration of a compiler and an architecture is
    "boost 1.70.0 - <compiler> (<architecture><suffix>)". *)
Theorem GetDependencies_descriptions (w : World) :
  ∃ architectures compiler_infos d,
    candidates w = Ok ((architectures, compiler_infos), w)
    ∧ GetDependencies w = Ok (d, w)
    ∧ ∀ name cfg,
        (name, cfg) ∈ d →
        (name = "1.70.0"
         ∧ description cfg = "boost 1.70.0 (No compiler dependencies)")
        ∨ ∃ compiler suffix architecture,
            (compiler, suffix) ∈ compiler_infos
            ∧ architecture ∈ architectures
            ∧ name = "1.70.0_" +:+ compiler +:+ "_" +:+ architecture
                     +:+ default "" suffix
            ∧ description cfg
              = "boost 1.70.0 - " +:+ compiler +:+ " (" +:+ architecture
                +:+ default "" suffix +:+ ")".
Proof.
  destruct (GetDependencies_run w) as (archs & cis & Hc & _ & Hd).
  exists archs, cis, (Items.all archs cis). split; [done|]. split; [done|].
  intros name cfg Hcfg.
  apply elem_of_all in Hcfg
    as [[= -> ->]|([compiler suffix] & a & Hinfo & Ha & [= -> ->])].
  - by left.
  - right. exists compiler, suffix, a. split; [done|]. split; [done|].
    unfold Items.name. simpl. by rewrite or_str_default.
Qed.

Lemma NoDup_descriptions_Windows :
  NoDup (description <$>
           (Items.all ["x64"; "x86"]
              [("MSVC_2019", None); ("Clang_10", Some "_ex")]).*2).
Proof. apply (bool_decide_unpack _). vm_compute. reflexivity. Qed.

Lemma NoDup_descriptions_other (a : string) :
  NoDup (description <$> (Items.all [a] [("Clang_10", Some "_ex")]).*2).
Proof.
  apply NoDup_cons. split; [|apply NoDup_singleton].
  intros H. apply list_elem_of_singleton in H.
  vm_compute in H. discriminate H.
Qed.

(** X5. On every platform the descriptions of the configurations are
    pairwise distinct, as their names are. *)
Theorem GetDependencies_descriptions_unique (w : World) :
  ∃ d, GetDependencies w = Ok (d, w)
       ∧ NoDup (description <$> OrderedDict.values d).
Proof.
  destruct (decide (CategoryName (CurrentShell w) = "Windows")) as [H|H].
  - eexists. split.
    + apply GetDependencies_candidates;
        [by apply candidates_Windows | apply NoDup_Windows].
    + apply NoDup_descriptions_Windows.
  - eexists. split.
    + apply GetDependencies_candidates;
        [by apply candidates_other | apply NoDup_other].
    + apply NoDup_descriptions_other.
Qed.

(** X6. The name of a configuration and the sub-configuration of its first
    dependency go together: under "1.70.0" the sub-configuration is
    "standard"; under any other name it is not "standard", and the name is
    "1.70.0_" followed by it. *)
Theorem GetDependencies_name_of_sub_configuration (w : World) :
  ∃ d, GetDependencies w = Ok (d, w)
       ∧ ∀ name cfg,
           (name, cfg) ∈ d →
           ∃ boost helpers,
             dependencies cfg = [boost; helpers]
             ∧ ((name = "1.70.0" ∧ dep_configuration boost = "standard")
                ∨ (name = "1.70.0_" +:+ dep_configuration boost
                   ∧ dep_configuration boost ≠ "standard")).
Proof.
  destruct (GetDependencies_run w) as (archs & cis & Hc & _ & Hd).
  exists (Items.all archs cis). split; [done|].
  intros name cfg Hcfg.
  apply elem_of_all in Hcfg
    as [[= -> ->]|(info & a & Hinfo & Ha & [= -> ->])].
  - eexists _, _. split; [reflexivity|]. by left.
  - eexists _, _. split; [reflexivity|]. right. split; [reflexivity|].
    simpl. intros Hstd.
    destruct (candidates_compilers w _ _ _ Hc Hinfo) as [-> | ->];
      vm_compute in Hstd; discriminate Hstd.
Qed.

(** X7. A configuration offered off Windows, on the architecture x64 or
    x86, is offered on Windows under the same name, with the same
    description and the same dependencies. *)
Theorem GetDependencies_included_in_Windows (w w' : World) :
  CategoryName (CurrentShell w) ≠ "Windows" →
  Architecture (CurrentShell w) ∈ ["x64"; "x86"] →
  CategoryName (CurrentShell w') = "Windows" →
  ∃ d d', GetDependencies w = Ok (d, w)
          ∧ GetDependencies w' = Ok (d', w')
          ∧ ∀ name cfg, (name, cfg) ∈ d → (name, cfg) ∈ d'.
Proof.
  intros H Ha H'. eexists _, _. split; [|split].
  - apply GetDependencies_candidates;
      [by apply candidates_other | apply NoDup_other].
  - apply GetDependencies_candidates;
      [by apply candidates_Windows | apply NoDup_Windows].
  - intros name cfg Hcfg. apply elem_of_all.
    apply elem_of_all in Hcfg as [?|(info & a & Hinfo & Hin & ->)]; [by left|].
    right. apply list_elem_of_singleton in Hinfo as ->.
    apply list_elem_of_singleton in Hin as ->.
    eexists _, _. split; [|split; [exact Ha | reflexivity]].
    apply list_elem_of_further, list_elem_of_here.
Qed.

Lemma GetDependencies_included_in_Windows_witness :
  ∃ d d', GetDependencies Examples.linux = Ok (d, Examples.linux)
          ∧ GetDependencies Examples.windows = Ok (d', Examples.windows)
          ∧ ∀ name cfg, (name, cfg) ∈ d → (name, cfg) ∈ d'.
Proof.
  apply (GetDependencies_included_in_Windows Examples.linux Examples.windows).
  - discriminate.
  - apply list_elem_of_here.
  - reflexivity.
Defined.

(** *** Loading the module *)

Section loading_more.
Context {Action A B C : Type}.

End loading_more.

